(** * Frontend/js/tabs.js: the tab selector

    A shallow embedding of the script and of the part of the DOM it
    touches, followed by the properties of the click listener. *)

From stdpp Require Import gmap strings list fin_maps.

(** ** JavaScript computations: state passing with abrupt completion *)

Module Js.

Inductive exn := TypeError.

(** A statement either completes normally with a value or throws. *)
Inductive completion (A : Type) :=
  | Normal (a : A)
  | Throw (e : exn).
Arguments Normal {A} a.
Arguments Throw {A} e.

(** [value] is what [getAttribute] can return: a string or [null]. *)
Inductive value :=
  | null
  | str (s : string).

(** Conversion to a DOMString as WebIDL does it for an argument that is
    not nullable: [null] becomes the four letter string. *)
Definition DOMString (v : value) : string :=
  match v with
  | null => "null"
  | str s => s
  end.

Section Monad.
Context {S : Type}.

Definition M (A : Type) : Type := S → S * completion A.

Definition ret {A} (a : A) : M A := λ s, (s, Normal a).

Definition bind {A B} (f : A → M B) (m : M A) : M B :=
  λ s, match m s with
       | (s', Normal a) => f a s'
       | (s', Throw e) => (s', Throw e)
       end.

Definition throw {A} (e : exn) : M A := λ s, (s, Throw e).

(** [Array.prototype.forEach] and [NodeList.prototype.forEach]: the
    callback runs on each item in turn; a throw stops the loop. *)
Fixpoint forEach {A} (l : list A) (f : A → M unit) : M unit :=
  match l with
  | [] => ret tt
  | x :: l' => bind (λ _, forEach l' f) (f x)
  end.
End Monad.

Arguments M : clear implicits.

#[global] Instance M_ret {S} : MRet (M S) := @ret S.
#[global] Instance M_bind {S} : MBind (M S) := @bind S.

End Js.

(** ** The document *)

Module Dom.
Import Js.

(** Element objects are referred to by reference; [node] is that
    reference. *)
Abbreviation node := nat.

(** An element: its attributes other than [class], and the token list
    of its [class] attribute, which is what [classList] exposes. *)
Record Element := mkElement {
  attributes : gmap string string;
  classList : list string;
}.

(** The arrow function of tabs.js line 4 as a closure: its free
    variables are the global [tabs], which the script never assigns
    again, and the loop variable [tab]. *)
Record Closure := mkClosure {
  c_tabs : list node;
  c_tab : node;
}.

(** The page: every element object (attached or not), the elements of
    the document in tree order, the listener list of each event
    target, and the parent element of each element that has one. The
    script only uses [querySelectorAll] and [getElementById], which
    depend on the tree through its order only; the parents are what
    the propagation of an event follows. *)
Record Document := mkDocument {
  nodes : gmap node Element;
  tree : list node;
  listeners : gmap node (list (string * Closure));
  parent : gmap node node;
}.

Definition set_nodes (f : gmap node Element → gmap node Element)
    (d : Document) : Document :=
  {| nodes := f (nodes d); tree := tree d; listeners := listeners d;
     parent := parent d |}.

(** *** DOMTokenList *)

Definition token_remove (token : string) (e : Element) : Element :=
  {| attributes := attributes e;
     classList := filter (λ c, c ≠ token) (classList e) |}.

Definition token_add (token : string) (e : Element) : Element :=
  {| attributes := attributes e;
     classList := if decide (token ∈ classList e) then classList e
                  else classList e ++ [token] |}.

Definition contains (token : string) (e : Element) : bool :=
  bool_decide (token ∈ classList e).

(** [n.classList.remove(token)] and [n.classList.add(token)] *)
Definition classList_remove (n : node) (token : string) : M Document unit :=
  λ d, (set_nodes (alter (token_remove token) n) d, Normal tt).

Definition classList_add (n : node) (token : string) : M Document unit :=
  λ d, (set_nodes (alter (token_add token) n) d, Normal tt).

(** *** Element *)

(** [n.getAttribute(name)]: [null] when the attribute is absent. *)
Definition getAttribute (n : node) (name : string) : M Document value :=
  λ d, (d, Normal match nodes d !! n ≫= λ e, attributes e !! name with
                  | Some s => str s
                  | None => null
                  end).

(** The element's unique identifier: its [id] attribute when that is
    not the empty string. *)
Definition ID (e : Element) : option string :=
  match attributes e !! "id" with
  | Some s => if decide (s = EmptyString) then None else Some s
  | None => None
  end.

(** *** Document queries *)

(** The only selectors of the script are class selectors:
    [ByClass "tab-button"] stands for ['.tab-button']. *)
Inductive selector := ByClass (c : string).

Definition has_class (d : Document) (c : string) (n : node) : bool :=
  match nodes d !! n with
  | Some e => contains c e
  | None => false
  end.

Definition has_id (d : Document) (i : string) (n : node) : bool :=
  match nodes d !! n with
  | Some e => bool_decide (ID e = Some i)
  | None => false
  end.

Definition matches (d : Document) (sel : selector) (n : node) : bool :=
  match sel with
  | ByClass c => has_class d c n
  end.

(** [document.querySelectorAll(sel)]: a static list, in tree order. *)
Definition select (sel : selector) (d : Document) : list node :=
  filter (λ n, matches d sel n) (tree d).

Definition querySelectorAll (sel : selector) : M Document (list node) :=
  λ d, (d, Normal (select sel d)).

(** [document.getElementById(elementId)]: the first element in tree
    order with that identifier, or [None] for JavaScript's [null]. *)
Definition lookup_id (i : string) (d : Document) : option node :=
  head (filter (λ n, has_id d i n) (tree d)).

Definition getElementById (elementId : value) : M Document (option node) :=
  λ d, (d, Normal (lookup_id (DOMString elementId) d)).

(** Reading a property of the result of an expression that may be
    [null]: a TypeError on [null]. *)
Definition deref (o : option node) : M Document node :=
  match o with
  | Some n => mret n
  | None => throw TypeError
  end.

(** [n.addEventListener(type, f)]: every evaluation of an arrow
    function is a new function object, so the listener is always
    appended. *)
Definition addEventListener (n : node) (type : string) (f : Closure)
    : M Document unit :=
  λ d, ({| nodes := nodes d; tree := tree d;
           listeners := <[n := default [] (listeners d !! n) ++ [(type, f)]]>
                          (listeners d);
           parent := parent d |}, Normal tt).

(** *** Event path *)

(** The nodes an event dispatched at [n] passes when it bubbles: [n],
    its parent, the parent of that, and so on, innermost first. The
    walk takes at most [fuel] steps up. *)
Fixpoint climb (fuel : nat) (pm : gmap node node) (n : node) : list node :=
  n :: match fuel with
       | 0 => []
       | S fuel' =>
           match pm !! n with
           | Some p => climb fuel' pm p
           | None => []
           end
       end.

(** Every step up leaves a key of the parent map behind, so as many
    steps as it has keys reach the root when no element is its own
    ancestor. *)
Definition path (d : Document) (n : node) : list node :=
  climb (size (parent d)) (parent d) n.

(** [a] is a proper ancestor of [n]. *)
Inductive ancestor (pm : gmap node node) : node → node → Prop :=
  | ancestor_parent n p : pm !! n = Some p → ancestor pm n p
  | ancestor_step n p a : pm !! n = Some p → ancestor pm p a → ancestor pm n a.

(** No element is its own ancestor, as in every tree. *)
Definition acyclic (pm : gmap node node) : Prop := ∀ n, ¬ ancestor pm n n.

End Dom.

(** ** The script *)

Module Tabs.
Import Js Dom.

(** The click listener, lines 4 to 13. *)
Definition onclick (tabs : list node) (tab : node) : M Document unit :=
  target ← getAttribute tab "data-tab";
  (* Deactivate all tabs and contents *)
  forEach tabs (λ t, classList_remove t "active");;
  contents ← querySelectorAll (ByClass "tab-content");
  forEach contents (λ content, classList_remove content "visible");;
  (* Activate the clicked tab and corresponding content *)
  classList_add tab "active";;
  el ← getElementById target;
  panel ← deref el;
  classList_add panel "visible".

Definition call (f : Closure) : M Document unit :=
  onclick (c_tabs f) (c_tab f).

(** The top level of the script, lines 1 to 14; the result is the
    value of the global [tabs]. *)
Definition script : M Document (list node) :=
  tabs ← querySelectorAll (ByClass "tab-button");
  forEach tabs (λ tab, addEventListener tab "click" (mkClosure tabs tab));;
  mret tabs.

(** The listeners [fs] of one node of the event path, for an event of
    type [type]: they run in the order they were added. An exception
    thrown by a listener is reported and does not stop the others; the
    result carries the reported exceptions. *)
Fixpoint invoke (fs : list (string * Closure)) (type : string)
    (d : Document) : Document * list exn :=
  match fs with
  | [] => (d, [])
  | (ty, f) :: fs' =>
      if decide (ty = type) then
        match call f d with
        | (d', Normal _) => invoke fs' type d'
        | (d', Throw e) =>
            let '(d'', es) := invoke fs' type d' in (d'', e :: es)
        end
      else invoke fs' type d
  end.

(** The event passes the nodes [ns] in turn; at each, the listeners
    the node has at that moment run. *)
Fixpoint deliver (ns : list node) (type : string) (d : Document)
    : Document * list exn :=
  match ns with
  | [] => (d, [])
  | n :: ns' =>
      let '(d', es) := invoke (default [] (listeners d !! n)) type d in
      let '(d'', es') := deliver ns' type d' in (d'', es ++ es')
  end.

(** Dispatching at [n] an event of type [type] that bubbles, as a
    click does. The listeners of the script are added without the
    capture option and never stop the propagation, so they run at the
    target and then at each ancestor, innermost first, along the path
    the event has when it is dispatched. *)
Definition dispatch (n : node) (type : string) (d : Document)
    : Document * list exn :=
  deliver (path d n) type d.

(** A run of clicks: each handler works on the state the previous one
    left, whether it completed or threw. *)
Definition clicks (tabs : list node) (ts : list node) (d : Document)
    : Document :=
  foldl (λ d t, (onclick tabs t d).1) d ts.

(** *** Sample pages *)

Definition button (target : string) (cls : list string) : Element :=
  {| attributes := {["data-tab" := target]};
     classList := "tab-button" :: cls |}.

Definition panel (i : string) (cls : list string) : Element :=
  {| attributes := {["id" := i]}; classList := "tab-content" :: cls |}.

Definition page (es : list Element) : Document :=
  {| nodes := list_to_map (zip (seq 0 (length es)) es);
     tree := seq 0 (length es);
     listeners := ∅;
     parent := ∅ |}.

(** The scenario of the specification: two buttons, two panels. *)
Definition two_tabs : Document :=
  page [button "panel-a" []; button "panel-b" [];
        panel "panel-a" []; panel "panel-b" []].

(** A button whose identifier names nothing, next to a visible panel. *)
Definition dangling : Document :=
  page [button "missing" []; panel "panel-a" ["visible"]].


(** A button without [data-tab], and a panel whose id is [null]. *)
Definition unlabelled : Document :=
  page [{| attributes := ∅; classList := ["tab-button"] |}; panel "null" []].

(** A button without [data-tab], next to a visible panel. *)
Definition bare : Document :=
  page [{| attributes := ∅; classList := ["tab-button"] |};
        panel "panel-a" ["visible"]].

(** Markup that declares two active buttons, one of them dangling. *)
Definition both_active : Document :=
  page [button "panel-a" ["active"]; button "missing" ["active"];
        panel "panel-a" ["visible"]].

(** A button with a label inside it, and its panel; a second button
    nested in the first. *)
Definition nested : Document :=
  {| nodes := nodes (page [button "panel-a" []; mkElement ∅ ["label"];
                           button "missing" []; panel "panel-a" []]);
     tree := [0; 1; 2; 3];
     listeners := ∅;
     parent := {[1 := 0; 2 := 0]} |}.

(** A button that is its own target. *)
Definition self_target : Document :=
  page [{| attributes := {["data-tab" := "me"; "id" := "me"]};
           classList := ["tab-button"] |}].

End Tabs.

(** ** Vocabulary of the properties *)

Module Props.
Import Js Dom Tabs.

(** The two markers the script toggles. *)
Definition marker (c : string) : Prop := c = "active" ∨ c = "visible".

(** [e'] is [e] with at most its markers changed: same attributes, and
    the same other class tokens in the same order. *)
Definition restyled (e e' : Element) : Prop :=
  attributes e' = attributes e ∧
  filter (λ c, ¬ marker c) (classList e') =
  filter (λ c, ¬ marker c) (classList e).

(** [d'] has the elements and the tree of [d], each element with at
    most its markers changed. *)
Definition framed (d d' : Document) : Prop :=
  tree d' = tree d ∧
  ∀ n, option_Forall2 restyled (nodes d !! n) (nodes d' !! n).

(** The value of [tab.getAttribute('data-tab')]. *)
Definition data_tab (d : Document) (tab : node) : value :=
  match nodes d !! tab ≫= λ e, attributes e !! "data-tab" with
  | Some s => str s
  | None => null
  end.

(** The element a click of [tab] makes visible: what [getElementById]
    finds for that value. *)
Definition target_of (d : Document) (tab : node) : option node :=
  lookup_id (DOMString (data_tab d tab)) d.

(** The panels at the time of a click. *)
Definition panels (d : Document) : list node :=
  select (ByClass "tab-content") d.

(** Whether [n] refers to an element object of the page. *)
Definition live (d : Document) (n : node) : bool :=
  bool_decide (is_Some (nodes d !! n)).

(** What a [forEach] of [classList.remove(token)] over [l] does to the
    elements. *)
Definition remove_all (token : string) (l : list node)
    (m : gmap node Element) : gmap node Element :=
  foldl (λ m t, alter (token_remove token) t m) m l.

(** The state of a click just before the target is looked up: the
    markers cleared, the clicked tab active. *)
Definition cleared (tabs : list node) (tab : node) (d : Document) : Document :=
  set_nodes (λ m, alter (token_add "active") tab
                    (remove_all "visible" (panels d)
                       (remove_all "active" tabs m))) d.

(** What the loop of line 3 does to the listener lists. *)
Definition add_all (tabs l : list node)
    (ls : gmap node (list (string * Closure)))
    : gmap node (list (string * Closure)) :=
  foldl (λ ls tab, <[tab := default [] (ls !! tab)
                            ++ [("click", mkClosure tabs tab)]]> ls) ls l.

(** The state a click handler leaves, completed or not. *)
Definition after (tabs : list node) (tab : node) (d : Document) : Document :=
  (onclick tabs tab d).1.

(** Two pages agree on everything but the order of class tokens. *)
Definition same_marking (d1 d2 : Document) : Prop :=
  tree d1 = tree d2 ∧ listeners d1 = listeners d2 ∧
  ∀ n, option_Forall2
         (λ e1 e2, attributes e1 = attributes e2 ∧
                   ∀ c, contains c e1 = contains c e2)
         (nodes d1 !! n) (nodes d2 !! n).

(** At most one node of [l] satisfies [P]. *)
Definition at_most_one (P : node → bool) (l : list node) : Prop :=
  ∀ a b, a ∈ l → b ∈ l → P a = true → P b = true → a = b.

(** The selection invariant as the specification words it: [tabs] are
    the known triggers, the panels are those of the page, and the
    matching panel of a trigger is the panel its identifier resolves
    to. *)
Definition selection_invariant (tabs : list node) (d : Document) : Prop :=
  at_most_one (has_class d "active") tabs ∧
  at_most_one (has_class d "visible") (panels d) ∧
  ∀ t, t ∈ tabs → has_class d "active" t = true →
       ∃ p, target_of d t = Some p ∧ p ∈ panels d ∧
            has_class d "visible" p = true.

(** The same with the last part asked only of a trigger whose
    identifier resolves to a panel. *)
Definition selection (tabs : list node) (d : Document) : Prop :=
  at_most_one (has_class d "active") tabs ∧
  at_most_one (has_class d "visible") (panels d) ∧
  ∀ t p, t ∈ tabs → has_class d "active" t = true →
         target_of d t = Some p → p ∈ panels d →
         has_class d "visible" p = true.

(** What the handler of [t] reports when it runs on [d]: the TypeError
    of line 12 when the identifier resolves to nothing. *)
Definition reported (d : Document) (t : node) : list exn :=
  match target_of d t with
  | Some _ => []
  | None => [TypeError]
  end.

(** Element objects are not destroyed while the script refers to them:
    a later page [d] still has the objects of the page [d0]. *)
Definition persists (d0 d : Document) : Prop :=
  ∀ n, live d0 n = true → live d n = true.

(** What other scripts of the page may do between set-up and a click:
    create an element and attach it, with no parent element, at
    position [i] of the tree. *)
Definition attach (i : nat) (e : Element) (d : Document) : node * Document :=
  let n := fresh (dom (nodes d)) in
  (n, {| nodes := <[n := e]> (nodes d);
         tree := take i (tree d) ++ n :: drop i (tree d);
         listeners := listeners d;
         parent := parent d |}).

End Props.

Import Js Dom Tabs Props.

(** ** Class token lists *)

Section Tokens.
Implicit Types (e : Element) (c token : string).

Lemma elem_of_token_remove token e c :
  c ∈ classList (token_remove token e) ↔ c ∈ classList e ∧ c ≠ token.
Proof. simpl. rewrite list_elem_of_filter. tauto. Qed.

Lemma elem_of_token_add token e c :
  c ∈ classList (token_add token e) ↔ c ∈ classList e ∨ c = token.
Proof.
  simpl. case_decide.
  - split; [tauto | intros [?| ->]; done].
  - rewrite elem_of_app, list_elem_of_singleton. tauto.
Qed.

Lemma token_remove_idemp token e :
  token_remove token (token_remove token e) = token_remove token e.
Proof.
  unfold token_remove; simpl. f_equal.
  rewrite list_filter_filter. apply list_filter_iff. tauto.
Qed.

Lemma contains_token_remove token e c :
  contains c (token_remove token e) =
  if decide (c = token) then false else contains c e.
Proof.
  unfold contains. case_decide as Hc.
  - apply bool_decide_eq_false. rewrite elem_of_token_remove. tauto.
  - apply bool_decide_ext. rewrite elem_of_token_remove. tauto.
Qed.

Lemma contains_token_add token e c :
  contains c (token_add token e) =
  if decide (c = token) then true else contains c e.
Proof.
  unfold contains. case_decide as Hc.
  - apply bool_decide_eq_true. rewrite elem_of_token_add. tauto.
  - apply bool_decide_ext. rewrite elem_of_token_add. tauto.
Qed.

Lemma restyled_refl e : restyled e e.
Proof. by split. Qed.

Lemma restyled_trans e1 e2 e3 :
  restyled e1 e2 → restyled e2 e3 → restyled e1 e3.
Proof. intros [? ?] [? ?]. split; congruence. Qed.

Lemma restyled_token_remove token e :
  marker token → restyled e (token_remove token e).
Proof.
  intros Hm. split; [done |]. simpl.
  rewrite list_filter_filter. apply list_filter_iff.
  intros c. split; [tauto |]. intros Hc. split; [done |].
  intros ->. done.
Qed.

Lemma restyled_token_add token e :
  marker token → restyled e (token_add token e).
Proof.
  intros Hm. split; [done |]. simpl. case_decide; [done |].
  rewrite filter_app, filter_cons_False, filter_nil by tauto.
  by rewrite app_nil_r.
Qed.

Lemma restyled_contains e e' c :
  restyled e e' → ¬ marker c → contains c e' = contains c e.
Proof.
  intros [_ Hf] Hc. unfold contains. apply bool_decide_ext.
  assert (∀ l : list string, c ∈ l ↔ c ∈ filter (λ c, ¬ marker c) l) as Hl.
  { intros l. rewrite list_elem_of_filter. tauto. }
  by rewrite (Hl (classList e')), (Hl (classList e)), Hf.
Qed.

Lemma restyled_ID e e' : restyled e e' → ID e' = ID e.
Proof. intros [Ha _]. unfold ID. by rewrite Ha. Qed.
End Tokens.

(** ** Steps that only restyle *)

Section Frame.
Implicit Types (d : Document) (n k : node) (c token : string).

#[local] Instance restyled_reflexive : Reflexive restyled.
Proof. intros e. apply restyled_refl. Qed.

#[local] Instance restyled_transitive : Transitive restyled.
Proof. intros e1 e2 e3. apply restyled_trans. Qed.

Lemma framed_refl d : framed d d.
Proof. repeat split. intros n. reflexivity. Qed.

Lemma framed_trans d1 d2 d3 : framed d1 d2 → framed d2 d3 → framed d1 d3.
Proof.
  intros (Ht1 & Hn1) (Ht2 & Hn2).
  repeat split; [congruence |].
  intros n. etrans; [apply Hn1 | apply Hn2].
Qed.

Lemma framed_alter d (f : Element → Element) k :
  (∀ e, restyled e (f e)) → framed d (set_nodes (alter f k) d).
Proof.
  intros Hf. repeat split. intros n. simpl.
  rewrite lookup_alter. case_decide; subst.
  - destruct (nodes d !! n); constructor. apply Hf.
  - reflexivity.
Qed.

Lemma lookup_remove_all token l (m : gmap node Element) n :
  remove_all token l m !! n =
  if decide (n ∈ l) then token_remove token <$> m !! n else m !! n.
Proof.
  unfold remove_all. revert m. induction l as [| t l IH]; intros m; cbn [foldl].
  - case_decide as H; [by apply elem_of_nil in H | done].
  - rewrite IH, lookup_alter.
    destruct (decide (t = n)) as [-> | Hne].
    + rewrite (decide_True (P := n ∈ n :: l)) by left.
      case_decide; [| done].
      destruct (m !! n); simpl; [| done]. by rewrite token_remove_idemp.
    + apply decide_ext. rewrite elem_of_cons.
      split; [by right | intros [? | ?]; [congruence | done]].
Qed.

Lemma framed_remove_all d token l :
  marker token → framed d (set_nodes (remove_all token l) d).
Proof.
  intros Hm. repeat split. intros n. simpl. rewrite lookup_remove_all.
  case_decide; [| reflexivity].
  destruct (nodes d !! n); constructor. by apply restyled_token_remove.
Qed.

Section Queries.
Context (d d' : Document) (Hf : framed d d').

Lemma framed_live n : live d' n = live d n.
Proof using Hf.
  destruct Hf as (_ & Hn). unfold live. apply bool_decide_ext.
  destruct (Hn n); by rewrite ?is_Some_alt.
Qed.

Lemma framed_has_class c n :
  ¬ marker c → has_class d' c n = has_class d c n.
Proof using Hf.
  destruct Hf as (_ & Hn). intros Hc. unfold has_class.
  destruct (Hn n); [| done]. by apply restyled_contains.
Qed.

Lemma framed_has_id i n : has_id d' i n = has_id d i n.
Proof using Hf.
  destruct Hf as (_ & Hn). unfold has_id.
  destruct (Hn n) as [e e' He |]; [| done]. by rewrite (restyled_ID e e').
Qed.

Lemma framed_select c :
  ¬ marker c → select (ByClass c) d' = select (ByClass c) d.
Proof using Hf.
  intros Hc. unfold select. destruct Hf as (-> & _).
  apply list_filter_iff. intros n. simpl. by rewrite framed_has_class.
Qed.

Lemma framed_lookup_id i : lookup_id i d' = lookup_id i d.
Proof using Hf.
  unfold lookup_id. destruct Hf as (-> & _). f_equal.
  apply list_filter_iff. intros n. by rewrite framed_has_id.
Qed.

Lemma framed_data_tab n : data_tab d' n = data_tab d n.
Proof using Hf.
  destruct Hf as (_ & Hn). unfold data_tab.
  destruct (Hn n) as [e e' [He _] |]; simpl; [| done]. by rewrite He.
Qed.

Lemma framed_panels : panels d' = panels d.
Proof using Hf. apply framed_select. intros [? | ?]; discriminate. Qed.

Lemma framed_target_of n : target_of d' n = target_of d n.
Proof using Hf.
  unfold target_of. by rewrite framed_data_tab, framed_lookup_id.
Qed.
End Queries.
End Frame.

(** ** The click listener in closed form *)

Section Handler.
Implicit Types (d : Document) (n tab : node) (tabs : list node).

Lemma marker_active : marker "active".
Proof. by left. Qed.

Lemma marker_visible : marker "visible".
Proof. by right. Qed.

Lemma getAttribute_data_tab tab d :
  getAttribute tab "data-tab" d = (d, Normal (data_tab d tab)).
Proof. reflexivity. Qed.

Lemma querySelectorAll_panels d :
  querySelectorAll (ByClass "tab-content") d = (d, Normal (panels d)).
Proof. reflexivity. Qed.

Lemma getElementById_target_of tab d :
  getElementById (data_tab d tab) d = (d, Normal (target_of d tab)).
Proof. reflexivity. Qed.

Lemma forEach_remove token (l : list node) d :
  forEach l (λ t, classList_remove t token) d =
  (set_nodes (remove_all token l) d, Normal tt).
Proof.
  revert d. induction l as [| t l IH]; intros d.
  - by destruct d.
  - cbn [forEach]. unfold bind, classList_remove at 1. by rewrite IH.
Qed.

Lemma cleared_eq tabs tab d :
  cleared tabs tab d =
  set_nodes (alter (token_add "active") tab)
    (set_nodes (remove_all "visible" (panels d))
       (set_nodes (remove_all "active" tabs) d)).
Proof. reflexivity. Qed.

Lemma framed_cleared tabs tab d : framed d (cleared tabs tab d).
Proof.
  rewrite cleared_eq.
  eapply framed_trans; [apply (framed_remove_all d "active" tabs marker_active) |].
  eapply framed_trans;
    [apply (framed_remove_all _ "visible" (panels d) marker_visible) |].
  apply (framed_alter _ (token_add "active") tab).
  intros e. apply restyled_token_add, marker_active.
Qed.

Lemma onclick_eq tabs tab d :
  onclick tabs tab d =
  match target_of d tab with
  | Some p =>
      (set_nodes (alter (token_add "visible") p) (cleared tabs tab d),
       Normal tt)
  | None => (cleared tabs tab d, Throw TypeError)
  end.
Proof.
  unfold onclick, mbind, M_bind, bind, getAttribute.
  rewrite forEach_remove. unfold querySelectorAll. rewrite forEach_remove.
  unfold classList_add at 1, getElementById.
  fold (data_tab d tab). fold (panels (set_nodes (remove_all "active" tabs) d)).
  rewrite (framed_panels d) by (apply framed_remove_all, marker_active).
  rewrite <- cleared_eq.
  rewrite (framed_lookup_id d) by apply framed_cleared.
  fold (target_of d tab). by destruct (target_of d tab).
Qed.

Lemma framed_after tabs tab d : framed d (after tabs tab d).
Proof.
  unfold after. rewrite onclick_eq.
  destruct (target_of d tab) as [p |]; simpl; [| apply framed_cleared].
  eapply framed_trans; [apply framed_cleared |].
  apply (framed_alter _ (token_add "visible") p).
  intros e. apply restyled_token_add, marker_visible.
Qed.

Lemma onclick_completion tabs tab d :
  (onclick tabs tab d).2 =
  match target_of d tab with
  | Some _ => Normal tt
  | None => Throw TypeError
  end.
Proof. rewrite onclick_eq. by destruct (target_of d tab). Qed.

Lemma lookup_id_has_id i d p :
  lookup_id i d = Some p → p ∈ tree d ∧ has_id d i p = true.
Proof.
  unfold lookup_id. intros H.
  apply head_Some_elem_of, list_elem_of_filter in H as [H ?].
  split; [done |]. by apply Is_true_true.
Qed.

(** With identifiers that are unique in the document, the lookup finds
    the element that has the identifier. *)
Lemma lookup_id_unique i d p :
  p ∈ tree d → has_id d i p = true →
  (∀ q, q ∈ tree d → has_id d i q = true → q = p) →
  lookup_id i d = Some p.
Proof.
  intros Hp Hi Huniq. unfold lookup_id.
  destruct (filter (λ n, has_id d i n) (tree d)) as [| q l] eqn:Hf.
  - assert (p ∈ filter (λ n, has_id d i n) (tree d)) as Hin.
    { apply list_elem_of_filter. split; [by apply Is_true_true | done]. }
    rewrite Hf in Hin. by apply elem_of_nil in Hin.
  - assert (q ∈ filter (λ n, has_id d i n) (tree d)) as Hin.
    { rewrite Hf. left. }
    apply list_elem_of_filter in Hin as [Hq Hin].
    simpl. f_equal. apply Huniq; [done | by apply Is_true_true].
Qed.

Lemma target_of_has_id d tab p :
  target_of d tab = Some p →
  p ∈ tree d ∧ has_id d (DOMString (data_tab d tab)) p = true.
Proof.
  unfold target_of. apply lookup_id_has_id.
Qed.

Lemma target_of_live d tab p : target_of d tab = Some p → live d p = true.
Proof.
  intros [_ H]%target_of_has_id. unfold has_id in H. unfold live.
  apply bool_decide_eq_true. by destruct (nodes d !! p).
Qed.

Lemma has_class_cleared tabs tab d c n :
  has_class (cleared tabs tab d) c n =
  if decide (c = "active") then
    if decide (n = tab) then live d n
    else if decide (n ∈ tabs) then false else has_class d c n
  else if decide (c = "visible") then
    if decide (n ∈ panels d) then false else has_class d c n
  else has_class d c n.
Proof.
  unfold has_class, cleared, live. simpl. rewrite lookup_alter.
  destruct (decide (tab = n)) as [-> | Hne]; rewrite !lookup_remove_all;
    (destruct (nodes d !! n) as [e |] eqn:He; simpl;
     [rewrite ?(bool_decide_eq_true_2 (is_Some (Some e))) by eauto
     | rewrite ?(bool_decide_eq_false_2 (is_Some None)) by (by intros [? ?])]);
    repeat case_decide; subst; simpl;
    rewrite ?contains_token_add, ?contains_token_remove;
    repeat case_decide; done.
Qed.

Lemma has_class_after tabs tab d c n :
  has_class (after tabs tab d) c n =
  if decide (c = "active") then
    if decide (n = tab) then live d n
    else if decide (n ∈ tabs) then false else has_class d c n
  else if decide (c = "visible") then
    if decide (target_of d tab = Some n) then true
    else if decide (n ∈ panels d) then false else has_class d c n
  else has_class d c n.
Proof.
  unfold after. rewrite onclick_eq.
  destruct (target_of d tab) as [p |] eqn:Hp; cbn [fst].
  - pose proof (target_of_live _ _ _ Hp) as Hlive.
    rewrite <- (framed_live d (cleared tabs tab d)) in Hlive
      by apply framed_cleared.
    unfold live in Hlive. apply bool_decide_eq_true in Hlive as [e He].
    pose proof (has_class_cleared tabs tab d c n) as Hc.
    unfold has_class at 1. cbn [nodes set_nodes]. rewrite lookup_alter.
    destruct (decide (p = n)) as [-> | Hne].
    + rewrite He. cbn [fmap option_fmap option_map].
      rewrite contains_token_add.
      unfold has_class at 1 in Hc. rewrite He in Hc.
      destruct (decide (c = "visible")) as [-> | Hv].
      * rewrite decide_False by done. by rewrite decide_True by done.
      * rewrite Hc. by repeat case_decide.
    + fold (has_class (cleared tabs tab d) c n). rewrite Hc.
      repeat case_decide; try done; congruence.
  - rewrite has_class_cleared. by repeat case_decide.
Qed.
End Handler.

(** ** Set-up *)

Section Setup.
Implicit Types (d : Document) (n tab : node) (tabs l : list node).

Lemma forEach_add tabs l d :
  forEach l (λ tab, addEventListener tab "click" (mkClosure tabs tab)) d =
  ({| nodes := nodes d; tree := tree d;
      listeners := add_all tabs l (listeners d);
      parent := parent d |}, Normal tt).
Proof.
  revert d. induction l as [| t l IH]; intros d.
  - by destruct d.
  - cbn [forEach]. unfold bind, addEventListener at 1. by rewrite IH.
Qed.

Lemma script_eq d :
  script d =
  let tabs := select (ByClass "tab-button") d in
  ({| nodes := nodes d; tree := tree d;
      listeners := add_all tabs tabs (listeners d);
      parent := parent d |}, Normal tabs).
Proof.
  unfold script, mbind, M_bind, bind, querySelectorAll.
  by rewrite forEach_add.
Qed.

Lemma script_tabs d tabs :
  (script d).2 = Normal tabs → tabs = select (ByClass "tab-button") d.
Proof. rewrite script_eq. simpl. congruence. Qed.

Lemma script_framed d : framed d (script d).1.
Proof.
  rewrite script_eq. repeat split. intros n. simpl.
  destruct (nodes d !! n); constructor. apply restyled_refl.
Qed.

Lemma elem_of_tabs d tabs n :
  (script d).2 = Normal tabs →
  n ∈ tabs ↔ n ∈ tree d ∧ has_class d "tab-button" n = true.
Proof.
  intros ->%script_tabs. unfold select.
  rewrite list_elem_of_filter. simpl. rewrite Is_true_true. tauto.
Qed.

Lemma tabs_live d tabs n :
  (script d).2 = Normal tabs → n ∈ tabs → live d n = true.
Proof.
  intros Hs [_ Hc]%(elem_of_tabs _ _ _ Hs). unfold has_class in Hc.
  apply bool_decide_eq_true. by destruct (nodes d !! n).
Qed.

Lemma lookup_add_all tabs l (ls : gmap node (list (string * Closure))) n :
  NoDup l →
  add_all tabs l ls !! n =
  if decide (n ∈ l)
  then Some (default [] (ls !! n) ++ [("click", mkClosure tabs n)])
  else ls !! n.
Proof.
  unfold add_all. intros Hl. revert ls.
  induction Hl as [| t l Ht Hl IH]; intros ls; cbn [foldl].
  - by rewrite decide_False by apply not_elem_of_nil.
  - rewrite IH. destruct (decide (t = n)) as [-> | Hne].
    + rewrite decide_False by done.
      rewrite (decide_True (P := n ∈ n :: l)) by left.
      by rewrite lookup_insert_eq.
    + rewrite lookup_insert_ne by done. apply decide_ext.
      rewrite elem_of_cons.
      split; [by right | intros [? | ?]; [congruence | done]].
Qed.
End Setup.

(** ** Properties of a click *)

Section Click.
Implicit Types (d : Document) (n T P : node) (tabs : list node).

Lemma listeners_after tabs T d : listeners (after tabs T d) = listeners d.
Proof.
  unfold after. rewrite onclick_eq. by destruct (target_of d T).
Qed.

Lemma panels_after tabs T d : panels (after tabs T d) = panels d.
Proof. apply framed_panels, framed_after. Qed.

Lemma active_after tabs T d n :
  has_class (after tabs T d) "active" n =
  if decide (n = T) then live d n
  else if decide (n ∈ tabs) then false else has_class d "active" n.
Proof. by rewrite has_class_after. Qed.

Lemma visible_after tabs T d n :
  has_class (after tabs T d) "visible" n =
  if decide (target_of d T = Some n) then true
  else if decide (n ∈ panels d) then false else has_class d "visible" n.
Proof. by rewrite has_class_after. Qed.

Lemma data_tab_live d T i : data_tab d T = str i → live d T = true.
Proof.
  unfold data_tab, live. intros H. apply bool_decide_eq_true.
  by destruct (nodes d !! T).
Qed.

(** C1: after the click handler of a trigger [T] captured at set-up,
    [T] carries [active] and no other captured trigger does. The
    page [d] of the click is any page that still has the elements
    of the set-up page [d0]. *)
Theorem C1_clicked_trigger_alone_active (d0 : Document) d tabs T :
  (script d0).2 = Normal tabs → persists d0 d → T ∈ tabs →
  has_class (after tabs T d) "active" T = true ∧
  ∀ t, t ∈ tabs → t ≠ T → has_class (after tabs T d) "active" t = false.
Proof.
  intros Hs Hp HT. split.
  - rewrite active_after, decide_True by done.
    by apply Hp, (tabs_live d0 tabs).
  - intros t Ht Hne. rewrite active_after, decide_False by done.
    by rewrite decide_True.
Qed.

(** C2: when the [data-tab] of [T] is the identifier of a panel [P]
    of the page, the click handler of [T] completes, [P] carries
    [visible] and no other panel does. *)
Theorem C2_matching_panel_alone_visible d tabs T P i :
  T ∈ tabs → data_tab d T = str i → lookup_id i d = Some P →
  P ∈ panels d →
  (onclick tabs T d).2 = Normal tt ∧
  has_class (after tabs T d) "visible" P = true ∧
  ∀ p, p ∈ panels (after tabs T d) → p ≠ P →
       has_class (after tabs T d) "visible" p = false.
Proof.
  intros _ Hi HP Hpanel.
  assert (target_of d T = Some P) as Ht.
  { unfold target_of. by rewrite Hi. }
  split; [by rewrite onclick_completion, Ht |]. split.
  - by rewrite visible_after, decide_True.
  - intros p Hp Hne. rewrite panels_after in Hp.
    rewrite visible_after, decide_False by congruence.
    by rewrite decide_True.
Qed.

(** C6: when the [data-tab] of [T] is an identifier that does not
    resolve to a panel, the state the click handler of [T] leaves has
    [T] carrying [active] and no panel carrying [visible]. The
    hypothesis holds in particular when no panel has that
    identifier. *)
Theorem C6_dangling_target_state d tabs T i :
  T ∈ tabs → data_tab d T = str i →
  (∀ p, lookup_id i d = Some p → p ∉ panels d) →
  has_class (after tabs T d) "active" T = true ∧
  ∀ p, p ∈ panels (after tabs T d) →
       has_class (after tabs T d) "visible" p = false.
Proof.
  intros _ Hi Hno. split.
  - rewrite active_after, decide_True by done. by apply (data_tab_live d T i).
  - intros p Hp. rewrite panels_after in Hp.
    rewrite visible_after, decide_False, decide_True; [done | done |].
    unfold target_of. rewrite Hi. intros H. by apply (Hno p).
Qed.
End Click.

Lemma C1_witness :
  has_class (after [0; 1] 1 two_tabs) "active" 1 = true ∧
  ∀ t, t ∈ [0; 1] → t ≠ 1 →
       has_class (after [0; 1] 1 two_tabs) "active" t = false.
Proof.
  apply (C1_clicked_trigger_alone_active two_tabs two_tabs [0; 1] 1).
  - vm_compute. reflexivity.
  - intros n H. exact H.
  - compute_done.
Defined.

Lemma C2_witness :
  (onclick [0; 1] 1 two_tabs).2 = Normal tt ∧
  has_class (after [0; 1] 1 two_tabs) "visible" 3 = true ∧
  ∀ p, p ∈ panels (after [0; 1] 1 two_tabs) → p ≠ 3 →
       has_class (after [0; 1] 1 two_tabs) "visible" p = false.
Proof.
  apply (C2_matching_panel_alone_visible two_tabs [0; 1] 1 3 "panel-b").
  - compute_done.
  - vm_compute. reflexivity.
  - vm_compute. reflexivity.
  - compute_done.
Defined.

Lemma C6_witness :
  has_class (after [0] 0 dangling) "active" 0 = true ∧
  ∀ p, p ∈ panels (after [0] 0 dangling) →
       has_class (after [0] 0 dangling) "visible" p = false.
Proof.
  apply (C6_dangling_target_state dangling [0] 0 "missing").
  - compute_done.
  - vm_compute. reflexivity.
  - intros p H. vm_compute in H. discriminate H.
Defined.

(** ** A target that is missing *)

Section Missing.
Implicit Types (d : Document) (n T : node) (tabs : list node).

Lemma no_panel_visible tabs T d :
  (∀ p, target_of d T = Some p → p ∉ panels d) →
  ∀ p, p ∈ panels (after tabs T d) →
       has_class (after tabs T d) "visible" p = false.
Proof.
  intros Hno p Hp. rewrite panels_after in Hp.
  rewrite visible_after, decide_False, decide_True; [done | done |].
  intros H. by apply (Hno p).
Qed.

(** C3, amended: when the [data-tab] of [T] is an identifier that
    does not resolve to a panel, the click handler of [T] leaves no
    panel visible. If the identifier resolves to no element, the
    handler does not complete: the last statement throws a TypeError,
    and the state is the one the statements before it produced. If
    it resolves to an element that is not a panel, the handler
    completes and that element carries [visible]. *)
Theorem C3_unresolved_target_throws d tabs T i :
  T ∈ tabs → data_tab d T = str i →
  (∀ p, lookup_id i d = Some p → p ∉ panels d) →
  (∀ p, p ∈ panels (after tabs T d) →
        has_class (after tabs T d) "visible" p = false) ∧
  match lookup_id i d with
  | None => onclick tabs T d = (cleared tabs T d, Throw TypeError)
  | Some q => (onclick tabs T d).2 = Normal tt ∧
              has_class (after tabs T d) "visible" q = true
  end.
Proof.
  intros _ Hi Hno.
  assert (target_of d T = lookup_id i d) as Ht.
  { unfold target_of. by rewrite Hi. }
  split.
  - apply no_panel_visible. by rewrite Ht.
  - destruct (lookup_id i d) as [q |] eqn:Hq.
    + split; [by rewrite onclick_completion, Ht |].
      by rewrite visible_after, decide_True.
    + by rewrite onclick_eq, Ht.
Qed.

(** C10, amended: a trigger [T] without [data-tab] makes the handler
    look up the identifier [null]. The handler leaves [T] the only
    captured trigger carrying [active]. If no element has the
    identifier [null], the handler throws a TypeError and no panel
    carries [visible]; otherwise it completes, and the element found
    is the only one among it and the panels to carry [visible]. *)
Theorem C10_absent_attribute_looks_up_null d tabs T e :
  T ∈ tabs → nodes d !! T = Some e → attributes e !! "data-tab" = None →
  has_class (after tabs T d) "active" T = true ∧
  (∀ t, t ∈ tabs → t ≠ T → has_class (after tabs T d) "active" t = false) ∧
  match lookup_id "null" d with
  | None =>
      (onclick tabs T d).2 = Throw TypeError ∧
      ∀ p, p ∈ panels (after tabs T d) →
           has_class (after tabs T d) "visible" p = false
  | Some q =>
      (onclick tabs T d).2 = Normal tt ∧
      has_class (after tabs T d) "visible" q = true ∧
      ∀ p, p ∈ panels (after tabs T d) → p ≠ q →
           has_class (after tabs T d) "visible" p = false
  end.
Proof.
  intros _ He Ha.
  assert (target_of d T = lookup_id "null" d) as Ht.
  { unfold target_of, data_tab. rewrite He. simpl. by rewrite Ha. }
  split.
  { rewrite active_after, decide_True by done.
    apply bool_decide_eq_true. by rewrite He. }
  split.
  { intros t Hin Hne. rewrite active_after, decide_False by done.
    by rewrite decide_True. }
  destruct (lookup_id "null" d) as [q |] eqn:Hq.
  - split; [by rewrite onclick_completion, Ht |]. split.
    + by rewrite visible_after, decide_True.
    + intros p Hp Hne. rewrite panels_after in Hp.
      rewrite visible_after, decide_False by congruence.
      by rewrite decide_True.
  - split; [by rewrite onclick_completion, Ht |].
    apply no_panel_visible. by rewrite Ht.
Qed.
End Missing.

(** C3 as stated fails on [dangling]: the identifier of button 0
    resolves to nothing and its click handler does not complete; the
    dispatch of the click reports the TypeError. *)
Lemma C3_counterexample :
  (script dangling).2 = Normal [0] ∧
  data_tab dangling 0 = str "missing" ∧
  lookup_id "missing" dangling = None ∧
  (onclick [0] 0 dangling).2 = Throw TypeError ∧
  (dispatch 0 "click" (script dangling).1).2 = [TypeError].
Proof. vm_compute. done. Qed.

Lemma C3_witness :
  (∀ p, p ∈ panels (after [0] 0 dangling) →
        has_class (after [0] 0 dangling) "visible" p = false) ∧
  match lookup_id "missing" dangling with
  | None => onclick [0] 0 dangling = (cleared [0] 0 dangling, Throw TypeError)
  | Some q => (onclick [0] 0 dangling).2 = Normal tt ∧
              has_class (after [0] 0 dangling) "visible" q = true
  end.
Proof.
  apply (C3_unresolved_target_throws dangling [0] 0 "missing").
  - compute_done.
  - vm_compute. reflexivity.
  - intros p H. vm_compute in H. discriminate H.
Defined.

(** C10 as stated fails on [unlabelled]: button 0 has no [data-tab],
    the lookup finds the panel whose id is [null], and the handler
    completes with that panel visible. *)
Lemma C10_counterexample :
  (script unlabelled).2 = Normal [0] ∧
  data_tab unlabelled 0 = null ∧
  (onclick [0] 0 unlabelled).2 = Normal tt ∧
  panels (after [0] 0 unlabelled) = [1] ∧
  has_class (after [0] 0 unlabelled) "visible" 1 = true.
Proof. vm_compute. done. Qed.

Lemma C10_witness :
  has_class (after [0] 0 bare) "active" 0 = true ∧
  (∀ t, t ∈ [0] → t ≠ 0 → has_class (after [0] 0 bare) "active" t = false) ∧
  match lookup_id "null" bare with
  | None =>
      (onclick [0] 0 bare).2 = Throw TypeError ∧
      ∀ p, p ∈ panels (after [0] 0 bare) →
           has_class (after [0] 0 bare) "visible" p = false
  | Some q =>
      (onclick [0] 0 bare).2 = Normal tt ∧
      has_class (after [0] 0 bare) "visible" q = true ∧
      ∀ p, p ∈ panels (after [0] 0 bare) → p ≠ q →
           has_class (after [0] 0 bare) "visible" p = false
  end.
Proof.
  apply (C10_absent_attribute_looks_up_null bare [0] 0
           (mkElement ∅ ["tab-button"])).
  - compute_done.
  - vm_compute. reflexivity.
  - vm_compute. reflexivity.
Defined.

(** ** What a click leaves alone *)

Section Untouched.
Implicit Types (d : Document) (n T : node) (tabs : list node).

Lemma framed_dom d d' : framed d d' → dom (nodes d') = dom (nodes d).
Proof.
  intros [_ Hn]. apply set_eq. intros n. rewrite !elem_of_dom.
  destruct (Hn n); by rewrite ?is_Some_alt.
Qed.

Lemma lookup_after_other tabs T d n :
  n ≠ T → n ∉ tabs → n ∉ panels d → target_of d T ≠ Some n →
  nodes (after tabs T d) !! n = nodes d !! n.
Proof.
  intros HT Htabs Hpanels Htarget.
  assert (nodes (cleared tabs T d) !! n = nodes d !! n) as Hc.
  { unfold cleared. cbn [nodes set_nodes].
    rewrite lookup_alter_ne by done. rewrite !lookup_remove_all.
    by rewrite !decide_False. }
  unfold after. rewrite onclick_eq.
  destruct (target_of d T) as [p |]; cbn [fst nodes set_nodes]; [| done].
  rewrite lookup_alter_ne by congruence. done.
Qed.


(** C9: the panels a click clears and the element it makes visible
    are those of the page [d] at the time of the click. An element
    [n] that did not exist on the set-up page [d0] is cleared when it
    is a panel of [d], and is made visible when the identifier of [T]
    resolves to it in [d]. *)
Theorem C9_panels_and_target_at_click_time (d0 : Document) d tabs T n :
  (script d0).2 = Normal tabs → T ∈ tabs → live d0 n = false →
  (n ∈ panels d → target_of d T ≠ Some n →
   has_class (after tabs T d) "visible" n = false) ∧
  (target_of d T = Some n →
   has_class (after tabs T d) "visible" n = true).
Proof.
  intros _ _ _. split.
  - intros Hn Ht. rewrite visible_after, decide_False by done.
    by rewrite decide_True.
  - intros Ht. by rewrite visible_after, decide_True.
Qed.
End Untouched.



(** A panel attached to [two_tabs] after set-up, already visible. *)
Lemma C9_witness :
  (4 ∈ panels (attach 0 (panel "late" ["visible"]) (script two_tabs).1).2 →
   target_of (attach 0 (panel "late" ["visible"]) (script two_tabs).1).2 0 ≠ Some 4 →
   has_class (after [0; 1] 0
                (attach 0 (panel "late" ["visible"]) (script two_tabs).1).2)
     "visible" 4 = false) ∧
  (target_of (attach 0 (panel "late" ["visible"]) (script two_tabs).1).2 0 = Some 4 →
   has_class (after [0; 1] 0
                (attach 0 (panel "late" ["visible"]) (script two_tabs).1).2)
     "visible" 4 = true).
Proof.
  apply (C9_panels_and_target_at_click_time two_tabs).
  - vm_compute. reflexivity.
  - compute_done.
  - vm_compute. reflexivity.
Defined.

(** ** Runs of clicks *)

Section Runs.
Implicit Types (d : Document) (n T : node) (tabs ts : list node).

Lemma clicks_snoc tabs ts T d :
  clicks tabs (ts ++ [T]) d = after tabs T (clicks tabs ts d).
Proof. unfold clicks. by rewrite foldl_app. Qed.

Lemma framed_clicks tabs ts d : framed d (clicks tabs ts d).
Proof.
  revert d. induction ts as [| t ts IH]; intros d; [apply framed_refl |].
  eapply framed_trans; [apply (framed_after tabs t) | apply IH].
Qed.

Lemma has_class_twice tabs T d c n :
  has_class (after tabs T (after tabs T d)) c n =
  has_class (after tabs T d) c n.
Proof.
  pose proof (framed_after tabs T d) as Hf.
  rewrite (has_class_after tabs T (after tabs T d)).
  rewrite (framed_live _ _ Hf), (framed_target_of _ _ Hf),
    (framed_panels _ _ Hf).
  repeat case_decide; subst; try done;
    rewrite has_class_after; repeat case_decide; done.
Qed.

(** C5: a second click of the same trigger changes no marker. The
    two states have the same tree, listeners and attributes, every
    element carries the same class tokens, and the second handler
    completes or throws as the first did. *)
Theorem C5_click_twice_same_marking tabs T d :
  same_marking (after tabs T (after tabs T d)) (after tabs T d) ∧
  (onclick tabs T (after tabs T d)).2 = (onclick tabs T d).2.
Proof.
  pose proof (framed_after tabs T d) as Hf.
  pose proof (framed_after tabs T (after tabs T d)) as [Ht Hn].
  split; [split; [done | split; [apply listeners_after |]] |].
  - intros n. pose proof (λ c, has_class_twice tabs T d c n) as Hc.
    unfold has_class in Hc. specialize (Hn n).
    destruct (nodes (after tabs T d) !! n) as [e1 |],
      (nodes (after tabs T (after tabs T d)) !! n) as [e2 |];
      inversion Hn as [? ? [Ha _] |]; subst; constructor.
    split; [done | apply Hc].
  - by rewrite !onclick_completion, (framed_target_of _ _ Hf).
Qed.

(** C4, amended: after one click or more, the last clicked trigger
    [T] is the only captured trigger that carries [active], at most
    one panel carries [visible], and the panel the identifier of [T]
    resolves to, when there is one, carries [visible]. *)
Theorem C4_selection_after_click (d0 : Document) tabs ts T :
  (script d0).2 = Normal tabs → Forall (λ t, t ∈ tabs) (ts ++ [T]) →
  selection tabs (clicks tabs (ts ++ [T]) (script d0).1) ∧
  ∀ t, t ∈ tabs →
       has_class (clicks tabs (ts ++ [T]) (script d0).1) "active" t = true ↔
       t = T.
Proof.
  intros Hs Hall. rewrite clicks_snoc.
  set (d := clicks tabs ts (script d0).1).
  assert (T ∈ tabs) as HT.
  { apply Forall_app in Hall as [_ Hall]. by inversion Hall. }
  assert (live d T = true) as Hlive.
  { unfold d. rewrite (framed_live _ _ (framed_clicks tabs ts _)).
    rewrite (framed_live _ _ (script_framed d0)).
    by apply (tabs_live d0 tabs). }
  assert (∀ t, t ∈ tabs →
               has_class (after tabs T d) "active" t = true ↔ t = T) as Hact.
  { intros t Ht. rewrite active_after.
    destruct (decide (t = T)) as [-> | Hne]; [done |].
    by rewrite decide_True. }
  split; [| done]. split; [| split].
  - intros a b Ha Hb Haa Hab.
    apply Hact in Haa, Hab; congruence.
  - intros a b Ha Hb. rewrite panels_after in Ha, Hb.
    rewrite !visible_after.
    destruct (decide (target_of d T = Some a)) as [Hta |];
      [| by rewrite decide_True].
    destruct (decide (target_of d T = Some b)) as [Htb |];
      [congruence | by rewrite decide_True].
  - intros t p Ht Hta Hp _. apply Hact in Hta; [| done]. subst t.
    rewrite (framed_target_of _ _ (framed_after tabs T d)) in Hp.
    by rewrite visible_after, decide_True.
Qed.
End Runs.

(** On [self_target] the two states differ in the order of the class
    tokens of the button, which is why C5 compares markings. *)
Example click_twice_token_order :
  classList <$> nodes (clicks [0] [0] self_target) !! 0 =
    Some ["tab-button"; "active"; "visible"] ∧
  classList <$> nodes (clicks [0] [0; 0] self_target) !! 0 =
    Some ["tab-button"; "visible"; "active"].
Proof. by vm_compute. Qed.

(** C4 as stated fails on [both_active]. Before any click two triggers
    carry [active]. After a click of button 1, whose identifier names
    nothing, that button is active and no panel is visible. *)
Lemma C4_counterexample :
  (script both_active).2 = Normal [0; 1] ∧
  ¬ selection_invariant [0; 1] (clicks [0; 1] [] (script both_active).1) ∧
  ¬ selection_invariant [0; 1] (clicks [0; 1] [1] (script both_active).1).
Proof.
  split; [by vm_compute |]. split.
  - intros (H & _ & _). specialize (H 0 1).
    assert (0 = 1) as Heq; [| discriminate Heq].
    apply H; [compute_done | compute_done | by vm_compute | by vm_compute].
  - intros (_ & _ & H). destruct (H 1) as (p & Hp & _);
      [compute_done | by vm_compute |].
    vm_compute in Hp. discriminate Hp.
Qed.

Lemma C4_witness :
  selection [0; 1] (clicks [0; 1] ([0] ++ [1]) (script both_active).1) ∧
  ∀ t, t ∈ [0; 1] →
       has_class (clicks [0; 1] ([0] ++ [1]) (script both_active).1)
         "active" t = true ↔ t = 1.
Proof.
  apply (C4_selection_after_click both_active [0; 1] [0] 1).
  - vm_compute. reflexivity.
  - compute_done.
Defined.

(** ** Set-up and later elements *)

Section Later.
Implicit Types (d : Document) (n T : node) (tabs : list node).

(** C7: the script captures as [tabs] the elements of the tree that
    carry [tab-button] when it runs, each once, and appends one
    click listener, the handler of that trigger, to the listener list
    of each; it changes nothing else. A node that is not in [tabs],
    such as one that did not exist then, gets no listener, and no
    handler the script registered changes its [active] marker. *)
Theorem C7_setup_captures_triggers_once (d0 d1 : Document) tabs :
  NoDup (tree d0) → script d0 = (d1, Normal tabs) →
  (∀ n, n ∈ tabs ↔ n ∈ tree d0 ∧ has_class d0 "tab-button" n = true) ∧
  NoDup tabs ∧
  nodes d1 = nodes d0 ∧ tree d1 = tree d0 ∧ parent d1 = parent d0 ∧
  (∀ n, n ∈ tabs →
        listeners d1 !! n =
        Some (default [] (listeners d0 !! n) ++
              [("click", mkClosure tabs n)])) ∧
  (∀ n, n ∉ tabs → listeners d1 !! n = listeners d0 !! n) ∧
  (∀ n, live d0 n = false → n ∉ tabs) ∧
  (∀ n d T, n ∉ tabs → T ∈ tabs →
            has_class (after tabs T d) "active" n = has_class d "active" n).
Proof.
  intros Hnd Hs.
  assert ((script d0).2 = Normal tabs) as Hs2 by by rewrite Hs.
  assert (NoDup tabs) as Hndt.
  { rewrite (script_tabs _ _ Hs2). by apply NoDup_filter. }
  rewrite script_eq in Hs. cbn zeta in Hs.
  rewrite <- (script_tabs _ _ Hs2) in Hs.
  injection Hs as <-.
  split; [intros n; by apply elem_of_tabs |]. split; [done |].
  split; [done |]. split; [done |]. split; [done |]. cbn [listeners]. split.
  { intros n Hn. rewrite lookup_add_all by done. by rewrite decide_True. }
  split.
  { intros n Hn. rewrite lookup_add_all by done. by rewrite decide_False. }
  split.
  { intros n Hn Hin. apply (tabs_live d0 tabs) in Hin; congruence. }
  intros n d T Hn HT. rewrite active_after.
  rewrite decide_False by (intros ->; done). by rewrite decide_False.
Qed.
End Later.

Lemma C7_witness :
  (∀ n, n ∈ [0; 1] ↔
        n ∈ tree two_tabs ∧ has_class two_tabs "tab-button" n = true) ∧
  NoDup [0; 1] ∧
  nodes (script two_tabs).1 = nodes two_tabs ∧
  tree (script two_tabs).1 = tree two_tabs ∧
  parent (script two_tabs).1 = parent two_tabs ∧
  (∀ n, n ∈ [0; 1] →
        listeners (script two_tabs).1 !! n =
        Some (default [] (listeners two_tabs !! n) ++
              [("click", mkClosure [0; 1] n)])) ∧
  (∀ n, n ∉ [0; 1] →
        listeners (script two_tabs).1 !! n = listeners two_tabs !! n) ∧
  (∀ n, live two_tabs n = false → n ∉ [0; 1]) ∧
  (∀ n d T, n ∉ [0; 1] → T ∈ [0; 1] →
            has_class (after [0; 1] T d) "active" n = has_class d "active" n).
Proof.
  apply (C7_setup_captures_triggers_once two_tabs (script two_tabs).1 [0; 1]).
  - compute_done.
  - vm_compute. reflexivity.
Defined.

(** ** When the handler completes *)

Section Completion.
Implicit Types (d : Document) (n T : node) (tabs : list node).

Lemma lookup_id_None i d :
  lookup_id i d = None ↔ ∀ p, p ∈ tree d → has_id d i p = false.
Proof.
  unfold lookup_id. rewrite head_None. split.
  - intros Hf p Hp. destruct (has_id d i p) eqn:Hi; [| done].
    assert (p ∈ filter (λ n, has_id d i n) (tree d)) as Hin.
    { apply list_elem_of_filter. split; [by apply Is_true_true | done]. }
    rewrite Hf in Hin. by apply elem_of_nil in Hin.
  - intros Hno. destruct (filter (λ n, has_id d i n) (tree d)) as [| q l] eqn:Hf;
      [done |].
    assert (q ∈ filter (λ n, has_id d i n) (tree d)) as Hin.
    { rewrite Hf. left. }
    apply list_elem_of_filter in Hin as [Hq Hin].
    apply Is_true_true in Hq. rewrite (Hno q Hin) in Hq. discriminate Hq.
Qed.

Lemma filter_has_id_nil d i (l : list node) :
  (∀ q, q ∈ l → has_id d i q = false) → filter (λ n, has_id d i n) l = [].
Proof.
  induction l as [| a l IH]; intros Hl; [done |].
  rewrite filter_cons_False.
  - apply IH. intros q Hq. apply Hl. by right.
  - rewrite (Hl a) by left. by intros [].
Qed.

Lemma has_id_empty d n : has_id d EmptyString n = false.
Proof.
  unfold has_id. destruct (nodes d !! n) as [e |]; [| done].
  apply bool_decide_eq_false. unfold ID.
  destruct (attributes e !! "id") as [s |]; [| done].
  case_decide; [done | congruence].
Qed.

(** X1: the click handler completes exactly when some element of the
    document has the identifier that the value of [data-tab] converts
    to, and throws a TypeError exactly when none has. *)
Theorem X1_completes_iff_id_present tabs T d :
  ((onclick tabs T d).2 = Normal tt ↔
   ∃ p, p ∈ tree d ∧ has_id d (DOMString (data_tab d T)) p = true) ∧
  ((onclick tabs T d).2 = Throw TypeError ↔
   ∀ p, p ∈ tree d → has_id d (DOMString (data_tab d T)) p = false).
Proof.
  rewrite onclick_completion. unfold target_of.
  destruct (lookup_id (DOMString (data_tab d T)) d) as [q |] eqn:Hq.
  - apply lookup_id_has_id in Hq as [Hin Hid]. split.
    + split; [by exists q | done].
    + split; [done |]. intros Hno. rewrite (Hno q Hin) in Hid. discriminate Hid.
  - pose proof (proj1 (lookup_id_None _ _) Hq) as Hno. split.
    + split; [done |]. intros (p & Hin & Hid).
      rewrite (Hno p Hin) in Hid. discriminate Hid.
    + by split.
Qed.

(** X2: a trigger whose [data-tab] is the empty string always makes
    the handler throw, whatever the page holds: the empty string is the
    identifier of no element, not even of one whose [id] attribute is
    empty. *)
Theorem X2_empty_data_tab_throws tabs T d :
  data_tab d T = str EmptyString →
  onclick tabs T d = (cleared tabs T d, Throw TypeError).
Proof.
  intros Hi. rewrite onclick_eq. unfold target_of. rewrite Hi. simpl.
  rewrite (proj2 (lookup_id_None EmptyString d)); [done |].
  intros p _. apply has_id_empty.
Qed.

(** X3: when several elements have the identifier of [data-tab], the
    first in tree order is the one made visible, and every panel other
    than it, also one with the same identifier, is left without
    [visible]. *)
Theorem X3_first_id_in_tree_order_wins tabs T d i l1 p l2 :
  data_tab d T = str i → tree d = l1 ++ p :: l2 → has_id d i p = true →
  (∀ q, q ∈ l1 → has_id d i q = false) →
  (onclick tabs T d).2 = Normal tt ∧
  has_class (after tabs T d) "visible" p = true ∧
  ∀ q, q ∈ panels d → q ≠ p → has_class (after tabs T d) "visible" q = false.
Proof.
  intros Hi Htree Hp Hl1.
  assert (target_of d T = Some p) as Ht.
  { unfold target_of, lookup_id. rewrite Hi, Htree, filter_app. simpl.
    rewrite (filter_has_id_nil d i l1 Hl1).
    rewrite filter_cons_True by by apply Is_true_true. done. }
  split; [by rewrite onclick_completion, Ht |]. split.
  - by rewrite visible_after, decide_True.
  - intros q Hq Hne. rewrite visible_after, decide_False by congruence.
    by rewrite decide_True.
Qed.
End Completion.

Lemma X2_witness :
  onclick [0] 0
    (page [button EmptyString [];
           {| attributes := {["id" := EmptyString]};
              classList := ["tab-content"] |}]) =
  (cleared [0] 0
     (page [button EmptyString [];
            {| attributes := {["id" := EmptyString]};
               classList := ["tab-content"] |}]), Throw TypeError).
Proof. apply X2_empty_data_tab_throws. vm_compute. reflexivity. Defined.

Lemma X3_witness :
  (onclick [0] 0
     (page [button "x" []; mkElement {["id" := "x"]} []; panel "x" []])).2 =
    Normal tt ∧
  has_class
    (after [0] 0
       (page [button "x" []; mkElement {["id" := "x"]} []; panel "x" []]))
    "visible" 1 = true ∧
  ∀ q, q ∈ panels
             (page [button "x" []; mkElement {["id" := "x"]} []; panel "x" []]) →
       q ≠ 1 →
       has_class
         (after [0] 0
            (page [button "x" []; mkElement {["id" := "x"]} []; panel "x" []]))
         "visible" q = false.
Proof.
  apply (X3_first_id_in_tree_order_wins [0] 0 _ "x" [0] 1 [2]).
  - vm_compute. reflexivity.
  - vm_compute. reflexivity.
  - vm_compute. reflexivity.
  - intros q Hq. apply list_elem_of_singleton in Hq as ->.
    vm_compute. reflexivity.
Defined.

(** ** What runs of clicks keep and forget *)

Section History.
Implicit Types (d : Document) (n T : node) (tabs ts : list node).

Lemma listeners_clicks tabs ts d : listeners (clicks tabs ts d) = listeners d.
Proof.
  revert d. induction ts as [| t ts IH]; intros d; [done |].
  cbn [clicks foldl]. fold (after tabs t d). fold (clicks tabs ts (after tabs t d)).
  by rewrite IH, listeners_after.
Qed.

Lemma clicks_cons tabs t ts d :
  clicks tabs (t :: ts) d = clicks tabs ts (after tabs t d).
Proof. reflexivity. Qed.

Lemma not_marker_tab_button : ¬ marker "tab-button".
Proof. intros [? | ?]; discriminate. Qed.

(** X4: a run of clicks changes nothing the script's queries depend
    on. Running the script again after it captures the same triggers,
    and the panels, the element each trigger resolves to, the tree,
    the set of elements and the listeners are those of before. *)
Theorem X4_clicks_keep_structure tabs ts d :
  (script (clicks tabs ts d)).2 = (script d).2 ∧
  panels (clicks tabs ts d) = panels d ∧
  (∀ T, target_of (clicks tabs ts d) T = target_of d T) ∧
  tree (clicks tabs ts d) = tree d ∧
  dom (nodes (clicks tabs ts d)) = dom (nodes d) ∧
  listeners (clicks tabs ts d) = listeners d.
Proof.
  pose proof (framed_clicks tabs ts d) as Hf.
  split.
  { rewrite !script_eq. cbn [snd]. f_equal.
    apply (framed_select _ _ Hf), not_marker_tab_button. }
  split; [apply (framed_panels _ _ Hf) |].
  split; [intros T; apply (framed_target_of _ _ Hf) |].
  split; [apply Hf |].
  split; [by apply framed_dom | apply listeners_clicks].
Qed.

(** X5: on the captured triggers and on the panels only the last
    click counts. Whatever clicks came before, each captured trigger
    carries [active], and each panel [visible], exactly as after that
    click alone, and the handler completes or throws as it would
    alone. *)
Theorem X5_last_click_decides tabs ts T d :
  (∀ n, n ∈ tabs →
        has_class (clicks tabs (ts ++ [T]) d) "active" n =
        has_class (after tabs T d) "active" n) ∧
  (∀ n, n ∈ panels d →
        has_class (clicks tabs (ts ++ [T]) d) "visible" n =
        has_class (after tabs T d) "visible" n) ∧
  (onclick tabs T (clicks tabs ts d)).2 = (onclick tabs T d).2.
Proof.
  pose proof (framed_clicks tabs ts d) as Hf. rewrite clicks_snoc.
  split.
  { intros n Hn. rewrite !active_after, (framed_live _ _ Hf).
    case_decide; [done |]. by rewrite !decide_True. }
  split.
  { intros n Hn.
    rewrite !visible_after, (framed_target_of _ _ Hf), (framed_panels _ _ Hf).
    case_decide; [done |]. by rewrite !decide_True. }
  by rewrite !onclick_completion, (framed_target_of _ _ Hf).
Qed.

Lemma visible_kept tabs ts d p :
  p ∉ panels d → has_class d "visible" p = true →
  has_class (clicks tabs ts d) "visible" p = true.
Proof.
  revert d. induction ts as [| t ts IH]; intros d Hp Hv; [done |].
  rewrite clicks_cons. apply IH.
  - by rewrite panels_after.
  - rewrite visible_after. case_decide; [done |]. by rewrite decide_False.
Qed.

(** X6: an element that is not a panel and that a click made visible
    stays visible through every later click: only panels are
    cleared. *)
Theorem X6_visible_sticks_outside_panels tabs T ts d p :
  target_of d T = Some p → p ∉ panels d →
  has_class (clicks tabs (T :: ts) d) "visible" p = true.
Proof.
  intros Ht Hp. rewrite clicks_cons. apply visible_kept.
  - by rewrite panels_after.
  - by rewrite visible_after, decide_True.
Qed.

Lemma elem_of_panels_tree d n : n ∈ panels d → n ∈ tree d.
Proof.
  unfold panels, select. rewrite list_elem_of_filter. tauto.
Qed.

(** X7: an element that is outside the document and is not a captured
    trigger is left exactly as it is by every run of clicks of
    captured triggers. *)
Theorem X7_detached_untouched tabs ts d n :
  n ∉ tree d → n ∉ tabs → Forall (λ t, t ∈ tabs) ts →
  nodes (clicks tabs ts d) !! n = nodes d !! n.
Proof.
  intros Htree Htabs Hts. revert d Htree.
  induction Hts as [| t ts Ht Hts IH]; intros d Htree; [done |].
  rewrite clicks_cons, IH.
  - apply lookup_after_other; [by intros -> | done | |].
    + intros Hp. by apply Htree, elem_of_panels_tree.
    + intros [Hin _]%target_of_has_id. by apply Htree.
  - by rewrite (proj1 (framed_after tabs t d)).
Qed.

Lemma active_kept tabs ts d n :
  n ∉ tabs → Forall (λ t, t ∈ tabs) ts →
  has_class (clicks tabs ts d) "active" n = has_class d "active" n.
Proof.
  intros Hn Hts. revert d.
  induction Hts as [| t ts Ht Hts IH]; intros d; [done |].
  rewrite clicks_cons, IH, active_after.
  rewrite decide_False by (by intros ->). by rewrite decide_False.
Qed.

Lemma visible_untargeted tabs ts d n :
  n ∉ panels d →
  Forall (λ t, ∀ p, target_of d t = Some p → p ∈ panels d) ts →
  has_class (clicks tabs ts d) "visible" n = has_class d "visible" n.
Proof.
  intros Hn Hts. revert d Hn Hts.
  induction ts as [| t ts IH]; intros d Hn Hts; [done |].
  apply Forall_cons in Hts as [Ht Hts].
  pose proof (framed_after tabs t d) as Hf.
  rewrite clicks_cons, IH.
  - rewrite visible_after.
    rewrite decide_False by (intros H; by apply Hn, Ht). by rewrite decide_False.
  - by rewrite panels_after.
  - eapply Forall_impl; [apply Hts |]. intros t' Ht' p.
    rewrite (framed_target_of _ _ Hf), panels_after. apply Ht'.
Qed.

Lemma same_marking_intro d a b :
  framed d a → framed d b → listeners a = listeners b →
  (∀ c n, has_class a c n = has_class b c n) → same_marking a b.
Proof.
  intros [Hta Hna] [Htb Hnb] Hl Hc.
  split; [congruence |]. split; [done |]. intros n.
  pose proof (λ c, Hc c n) as Hc'. unfold has_class in Hc'.
  pose proof (Hna n) as Ha. pose proof (Hnb n) as Hb.
  destruct (nodes d !! n) as [e |], (nodes a !! n) as [ea |],
    (nodes b !! n) as [eb |];
    inversion Ha as [? ? [Hea _] |]; inversion Hb as [? ? [Heb _] |];
    subst; constructor.
  split; [congruence | apply Hc'].
Qed.

(** X12: when every trigger clicked before resolves to a panel or to
    nothing, a run of clicks of captured triggers leaves the whole
    page marked as its last click alone would: no trace of the earlier
    clicks remains. *)
Theorem X12_run_same_as_last_click tabs ts T d :
  Forall (λ t, t ∈ tabs) ts →
  Forall (λ t, ∀ p, target_of d t = Some p → p ∈ panels d) ts →
  same_marking (clicks tabs (ts ++ [T]) d) (after tabs T d).
Proof.
  intros Hts Hpanels. pose proof (framed_clicks tabs ts d) as Hf.
  apply (same_marking_intro d).
  - apply framed_clicks.
  - apply framed_after.
  - by rewrite listeners_clicks, listeners_after.
  - intros c n. rewrite clicks_snoc, !has_class_after.
    rewrite (framed_live _ _ Hf), (framed_target_of _ _ Hf),
      (framed_panels _ _ Hf).
    repeat case_decide; subst; try done.
    + by apply active_kept.
    + by apply visible_untargeted.
    + apply (framed_has_class _ _ Hf). by intros [? | ?].
Qed.
End History.

Lemma X6_witness :
  has_class
    (clicks [0; 1] (0 :: [1])
       (page [button "box" []; button "panel-a" [];
              mkElement {["id" := "box"]} []; panel "panel-a" []]))
    "visible" 2 = true.
Proof.
  apply X6_visible_sticks_outside_panels.
  - vm_compute. reflexivity.
  - compute_done.
Defined.

Lemma X7_witness :
  nodes (clicks [0; 1] [0; 1]
           (mkDocument (<[7 := panel "off" ["visible"]]> (nodes two_tabs))
              (tree two_tabs) ∅ ∅)) !! 7 =
  nodes (mkDocument (<[7 := panel "off" ["visible"]]> (nodes two_tabs))
           (tree two_tabs) ∅ ∅) !! 7.
Proof.
  apply X7_detached_untouched.
  - compute_done.
  - compute_done.
  - compute_done.
Defined.

Lemma X12_witness :
  same_marking (clicks [0; 1] ([0; 1] ++ [0]) two_tabs) (after [0; 1] 0 two_tabs).
Proof.
  apply X12_run_same_as_last_click.
  - compute_done.
  - apply Forall_forall. intros t Ht p H.
    apply elem_of_cons in Ht as [-> | ->%list_elem_of_singleton];
      vm_compute in H; injection H as <-; compute_done.
Defined.

(** ** More on set-up and on class lists *)

Section Listening.
Implicit Types (d : Document) (n T : node) (tabs : list node).

(** X8: on a page where no element of the tree carries [tab-button]
    the script captures nothing and leaves the page as it is. *)
Theorem X8_script_without_triggers d :
  (∀ n, n ∈ tree d → has_class d "tab-button" n = false) →
  script d = (d, Normal []).
Proof.
  intros Hno. rewrite script_eq. cbn zeta.
  assert (select (ByClass "tab-button") d = []) as ->.
  { unfold select. induction (tree d) as [| a l IH]; [done |].
    rewrite filter_cons_False.
    - apply IH. intros n Hn. apply Hno. by right.
    - simpl. rewrite (Hno a) by left. by intros []. }
  by destruct d.
Qed.

Lemma NoDup_token_remove token e :
  NoDup (classList e) → NoDup (classList (token_remove token e)).
Proof. intros H. by apply NoDup_filter. Qed.

Lemma NoDup_token_add token e :
  NoDup (classList e) → NoDup (classList (token_add token e)).
Proof.
  intros H. simpl. case_decide as Hin; [done |].
  apply NoDup_app. split; [done |]. split; [| apply NoDup_singleton].
  intros c Hc ->%list_elem_of_singleton. done.
Qed.

(** X11: a click never repeats a class token. An element whose class
    list has no repeated token before the handler runs has none after,
    whether the handler completes or throws. *)
Theorem X11_click_keeps_tokens_distinct tabs T d n e e' :
  nodes d !! n = Some e → nodes (after tabs T d) !! n = Some e' →
  NoDup (classList e) → NoDup (classList e').
Proof.
  intros He He' Hnd.
  assert (∀ e1, nodes (cleared tabs T d) !! n = Some e1 →
                NoDup (classList e1)) as Hc.
  { intros e1. unfold cleared. cbn [nodes set_nodes].
    rewrite lookup_alter.
    destruct (decide (T = n)) as [-> | Hne]; rewrite !lookup_remove_all, He;
      repeat case_decide; cbn [fmap option_fmap option_map];
      intros [= <-];
      repeat first [apply NoDup_token_add | apply NoDup_token_remove]; done. }
  unfold after in He'. rewrite onclick_eq in He'.
  destruct (target_of d T) as [p |]; cbn [fst nodes set_nodes] in He';
    [| by apply Hc].
  rewrite lookup_alter in He'. case_decide; subst; [| by apply Hc].
  destruct (nodes (cleared tabs T d) !! n) as [e1 |] eqn:H1; [| done].
  injection He' as <-. apply NoDup_token_add. by apply Hc.
Qed.
End Listening.

Lemma X8_witness :
  script (page [panel "panel-a" ["visible"]]) =
  (page [panel "panel-a" ["visible"]], Normal []).
Proof.
  apply X8_script_without_triggers.
  intros n Hn. apply list_elem_of_singleton in Hn as ->.
  vm_compute. reflexivity.
Defined.

Lemma X11_witness :
  NoDup (classList (mkElement {["id" := "panel-a"]} ["tab-content"; "visible"])).
Proof.
  apply (X11_click_keeps_tokens_distinct [0; 1] 0 two_tabs 2
           (panel "panel-a" [])).
  - vm_compute. reflexivity.
  - vm_compute. reflexivity.
  - compute_done.
Defined.

(** ** Propagation of events *)

Section Path.
Implicit Types (pm : gmap node node) (n a : node) (fuel : nat).

Lemma climb_sound pm fuel n a :
  a ∈ climb fuel pm n → a = n ∨ ancestor pm n a.
Proof.
  revert n. induction fuel as [| fuel IH]; intros n; cbn [climb].
  - intros ->%list_elem_of_singleton. by left.
  - rewrite elem_of_cons. intros [-> | Ha]; [by left |]. right.
    destruct (pm !! n) as [p |] eqn:Hp; [| by apply elem_of_nil in Ha].
    destruct (IH p Ha) as [-> | Hanc].
    + by apply ancestor_parent.
    + by apply (ancestor_step pm n p).
Qed.

Lemma climb_NoDup pm fuel n : acyclic pm → NoDup (climb fuel pm n).
Proof.
  intros Hac. revert n. induction fuel as [| fuel IH]; intros n; cbn [climb].
  - apply NoDup_singleton.
  - destruct (pm !! n) as [p |] eqn:Hp; [| apply NoDup_singleton].
    apply NoDup_cons. split; [| apply IH].
    intros [Heq | Hanc]%climb_sound; apply (Hac n).
    + apply ancestor_parent. congruence.
    + by apply (ancestor_step pm n p).
Qed.

(** A walk either ends at an element without parent or has used all
    its fuel on keys of the parent map. *)
Lemma climb_ends pm fuel n :
  (∃ z, last (climb fuel pm n) = Some z ∧ pm !! z = None) ∨
  (length (climb fuel pm n) = S fuel ∧
   ∀ x, x ∈ climb fuel pm n → x ∈ dom pm).
Proof.
  revert n. induction fuel as [| fuel IH]; intros n; cbn [climb].
  - destruct (pm !! n) as [p |] eqn:Hp.
    + right. split; [done |]. intros x ->%list_elem_of_singleton.
      apply elem_of_dom. by rewrite Hp.
    + left. by exists n.
  - destruct (pm !! n) as [p |] eqn:Hp; [| left; by exists n].
    destruct (IH p) as [(z & Hz & Hnone) | [Hlen Hdom]].
    + left. exists z. split; [| done]. by rewrite last_cons, Hz.
    + right. split; [simpl; by rewrite Hlen |].
      intros x [-> | Hx]%elem_of_cons; [| by apply Hdom].
      apply elem_of_dom. by rewrite Hp.
Qed.

Lemma path_ends pm n :
  acyclic pm → ∃ z, last (climb (size pm) pm n) = Some z ∧ pm !! z = None.
Proof.
  intros Hac. destruct (climb_ends pm (size pm) n) as [H | [Hlen Hdom]]; [done |].
  exfalso.
  assert (climb (size pm) pm n ⊆+ elements (dom pm)) as Hsub.
  { apply NoDup_submseteq; [by apply climb_NoDup |].
    intros x Hx. apply elem_of_elements. by apply Hdom. }
  apply submseteq_length in Hsub. rewrite Hlen in Hsub.
  change (length (elements (dom pm))) with (size (dom pm)) in Hsub.
  rewrite size_dom in Hsub. lia.
Qed.

Lemma climb_complete pm fuel n z a :
  last (climb fuel pm n) = Some z → pm !! z = None →
  ancestor pm n a → a ∈ climb fuel pm n.
Proof.
  revert n. induction fuel as [| fuel IH]; intros n; cbn [climb].
  - intros [= <-] Hnone Hanc. inversion Hanc; congruence.
  - intros Hlast Hnone Hanc.
    assert (∃ p, pm !! n = Some p ∧ (a = p ∨ ancestor pm p a)) as (p & Hp & Ha).
    { inversion Hanc; subst; eauto. }
    rewrite Hp in Hlast |- *. right.
    destruct fuel as [| fuel'].
    + cbn [climb] in *. rewrite last_cons in Hlast. simpl in Hlast.
      injection Hlast as <-. destruct Ha as [-> | Ha]; [left |].
      inversion Ha; congruence.
    + destruct Ha as [-> | Ha]; [cbn [climb]; left |].
      apply IH; [| done | done].
      rewrite last_cons in Hlast.
      destruct (last (climb (S fuel') pm p)) as [y |] eqn:Hy; [done |].
      apply last_None in Hy. discriminate Hy.
Qed.

(** In a tree, the path of [n] is [n] followed by exactly its
    ancestors. *)
Lemma path_ancestors (d : Document) n a :
  acyclic (parent d) →
  a ∈ path d n ↔ a = n ∨ ancestor (parent d) n a.
Proof.
  intros Hac. unfold path. split; [apply climb_sound |].
  intros [-> | Hanc].
  - destruct (size (parent d)); cbn [climb]; left.
  - destruct (path_ends (parent d) n Hac) as (z & Hz & Hnone).
    by apply (climb_complete _ _ _ z).
Qed.
End Path.

Section Propagation.
Implicit Types (d : Document) (n x T : node) (tabs ns : list node).

Lemma filter_none {A} (P : A → Prop) `{∀ a, Decision (P a)} (l : list A) :
  (∀ a, a ∈ l → ¬ P a) → filter P l = [].
Proof.
  induction l as [| a l IH]; intros Hl; [done |].
  rewrite filter_cons_False by (apply Hl; left).
  apply IH. intros b Hb. apply Hl. by right.
Qed.

Lemma parent_after tabs T d : parent (after tabs T d) = parent d.
Proof. unfold after. rewrite onclick_eq. by destruct (target_of d T). Qed.

Lemma reported_after tabs T d t : reported (after tabs T d) t = reported d t.
Proof.
  unfold reported. by rewrite (framed_target_of _ _ (framed_after tabs T d)).
Qed.

(** The listener lists the script leaves on a page that had none. *)
Lemma script_listeners (d0 : Document) tabs n :
  NoDup (tree d0) → (script d0).2 = Normal tabs → listeners d0 = ∅ →
  listeners (script d0).1 !! n =
  if decide (n ∈ tabs) then Some [("click", mkClosure tabs n)] else None.
Proof.
  intros Hnd Hs Hl. pose proof (script_tabs _ _ Hs) as Htabs.
  rewrite script_eq. cbn [fst listeners]. rewrite <- Htabs.
  rewrite lookup_add_all by (rewrite Htabs; by apply NoDup_filter).
  rewrite Hl, lookup_empty. by case_decide.
Qed.

Lemma invoke_click tabs T d :
  invoke [("click", mkClosure tabs T)] "click" d =
  (after tabs T d, reported d T).
Proof.
  cbn [invoke]. rewrite decide_True by done.
  unfold call, after, reported. cbn [c_tabs c_tab]. rewrite onclick_eq.
  by destruct (target_of d T).
Qed.

Lemma invoke_other_type tabs T type d :
  type ≠ "click" → invoke [("click", mkClosure tabs T)] type d = (d, []).
Proof. intros Hne. cbn [invoke]. by rewrite decide_False by done. Qed.

Lemma deliver_other_type tabs ns type d :
  (∀ n, listeners d !! n =
        if decide (n ∈ tabs) then Some [("click", mkClosure tabs n)]
        else None) →
  type ≠ "click" → deliver ns type d = (d, []).
Proof.
  intros Hl Hne. induction ns as [| n ns IH]; [done |].
  cbn [deliver]. rewrite Hl.
  case_decide; cbn [default from_option id];
    [rewrite invoke_other_type by done | cbn [invoke]]; by rewrite IH.
Qed.

Lemma deliver_click tabs ns d :
  (∀ n, listeners d !! n =
        if decide (n ∈ tabs) then Some [("click", mkClosure tabs n)]
        else None) →
  deliver ns "click" d =
  (clicks tabs (filter (λ t, t ∈ tabs) ns) d,
   filter (λ t, t ∈ tabs) ns ≫= reported d).
Proof.
  revert d. induction ns as [| n ns IH]; intros d Hl; [done |].
  cbn [deliver]. rewrite Hl.
  destruct (decide (n ∈ tabs)) as [Hn | Hn]; cbn [default from_option id].
  - rewrite invoke_click, IH by (intros m; by rewrite listeners_after).
    rewrite filter_cons_True by done. rewrite clicks_cons, bind_cons.
    f_equal. f_equal. apply list_bind_ext; [| done].
    intros t. apply reported_after.
  - cbn [invoke]. rewrite IH by done. by rewrite filter_cons_False.
Qed.

(** X9: the script listens to clicks only. On a page whose listeners
    are those the script left, an event of any other type, dispatched
    at any node and bubbling through its ancestors, runs nothing and
    changes nothing. *)
Theorem X9_only_click_listened (d0 : Document) tabs type x d :
  NoDup (tree d0) → (script d0).2 = Normal tabs → listeners d0 = ∅ →
  listeners d = listeners (script d0).1 → type ≠ "click" →
  dispatch x type d = (d, []).
Proof.
  intros Hnd Hs Hl Hd Hne. unfold dispatch.
  apply (deliver_other_type tabs); [| done].
  intros n. rewrite Hd. by apply script_listeners.
Qed.

(** X13: a click bubbles. On a page whose listeners are those the
    script left, a click dispatched at a node [x] runs the handlers of
    the captured triggers among [x] and its ancestors, innermost first,
    and reports a TypeError for each whose identifier resolves to
    nothing. So a click inside a trigger runs that trigger's handler,
    and a click at a node with no captured trigger on its path changes
    nothing. Whatever the node, an element that is not a captured
    trigger keeps its [active] marker. *)
Theorem X13_click_runs_triggers_on_path (d0 : Document) tabs x d :
  NoDup (tree d0) → (script d0).2 = Normal tabs → listeners d0 = ∅ →
  listeners d = listeners (script d0).1 →
  dispatch x "click" d =
    (clicks tabs (filter (λ t, t ∈ tabs) (path d x)) d,
     filter (λ t, t ∈ tabs) (path d x) ≫= reported d) ∧
  ((∀ t, t ∈ path d x → t ∉ tabs) → dispatch x "click" d = (d, [])) ∧
  (∀ n, n ∉ tabs →
        has_class (dispatch x "click" d).1 "active" n = has_class d "active" n).
Proof.
  intros Hnd Hs Hl Hd.
  assert (dispatch x "click" d =
          (clicks tabs (filter (λ t, t ∈ tabs) (path d x)) d,
           filter (λ t, t ∈ tabs) (path d x) ≫= reported d)) as Heq.
  { unfold dispatch. apply deliver_click.
    intros n. rewrite Hd. by apply script_listeners. }
  split; [done |]. split.
  - intros Hno. rewrite Heq.
    by rewrite (filter_none (λ t, t ∈ tabs) (path d x) Hno).
  - intros n Hn. rewrite Heq. cbn [fst]. apply active_kept; [done |].
    apply Forall_forall. intros t Ht. by apply list_elem_of_filter in Ht as [? _].
Qed.
End Propagation.

Lemma X9_witness :
  dispatch 1 "keydown" (script nested).1 = ((script nested).1, []).
Proof.
  apply (X9_only_click_listened nested [0; 2]).
  - compute_done.
  - vm_compute. reflexivity.
  - vm_compute. reflexivity.
  - reflexivity.
  - discriminate.
Defined.

(** On [nested], a click at the label inside button 0 runs the handler
    of button 0; a click at button 2, nested in button 0, runs the
    handler of button 2 and then that of button 0. *)
Example click_inside_trigger :
  dispatch 1 "click" (script nested).1 =
    (after [0; 2] 0 (script nested).1, []) ∧
  dispatch 2 "click" (script nested).1 =
    (clicks [0; 2] [2; 0] (script nested).1, [TypeError]) ∧
  has_class (dispatch 2 "click" (script nested).1).1 "active" <$> [0; 2] =
    [true; false].
Proof. by vm_compute. Qed.

Lemma X13_witness :
  dispatch 2 "click" (script nested).1 =
    (clicks [0; 2]
       (filter (λ t, t ∈ [0; 2]) (path (script nested).1 2)) (script nested).1,
     filter (λ t, t ∈ [0; 2]) (path (script nested).1 2) ≫=
       reported (script nested).1) ∧
  ((∀ t, t ∈ path (script nested).1 2 → t ∉ [0; 2]) →
   dispatch 2 "click" (script nested).1 = ((script nested).1, [])) ∧
  (∀ n, n ∉ [0; 2] →
        has_class (dispatch 2 "click" (script nested).1).1 "active" n =
        has_class (script nested).1 "active" n).
Proof.
  apply (X13_click_runs_triggers_on_path nested [0; 2] 2).
  - compute_done.
  - vm_compute. reflexivity.
  - vm_compute. reflexivity.
  - reflexivity.
Defined.
